(** * archive_upload.lib.jobrunner: the LocalQ job-runner adapter

    A shallow embedding of [archive_upload/lib/jobrunner.py] (Python 2) and
    the properties of its status translation, its forwarding methods and its
    DSMC exit-code heuristic.

    The scheduler ([localq.LocalQServer]) and the state vocabulary
    ([arteria.web.state.State]) are imported by the module, not defined in
    it: the scheduler is an interface here, the two vocabularies are the
    string constants their names spell. *)

From stdpp Require Import base option strings list countable gmap fin_maps.
From Stdlib Require Import ZArith Ascii String Lia.

Local Open Scope Z_scope.
Local Open Scope string_scope.

(** ** Python values, exceptions and results *)

Module Py.

(** The values that reach the adapter as job ids, raw statuses, paths and
    launch arguments. *)
Inductive pyvalue : Type :=
| PyNone
| PyInt (n : Z)
| PyStr (s : string).

#[global] Instance pyvalue_eq_dec : EqDecision pyvalue.
Proof. solve_decision. Defined.

Definition pyvalue_to_sum (v : pyvalue) : unit + (Z + string) :=
  match v with
  | PyNone => inl tt
  | PyInt n => inr (inl n)
  | PyStr s => inr (inr s)
  end.

Definition pyvalue_of_sum (x : unit + (Z + string)) : pyvalue :=
  match x with
  | inl _ => PyNone
  | inr (inl n) => PyInt n
  | inr (inr s) => PyStr s
  end.

#[global] Instance pyvalue_countable : Countable pyvalue.
Proof.
  apply (inj_countable' pyvalue_to_sum pyvalue_of_sum).
  intros []; reflexivity.
Defined.

(** The exception classes the module can meet; [SchedulerError] stands for
    whatever the scheduler itself raises. *)
Inductive exn : Type :=
| TypeError
| ValueError
| IOError
| AttributeError
| NameError
| NotImplementedError
| SchedulerError (msg : string).

(** A call either returns or raises. *)
Inductive result (A : Type) : Type :=
| Return (a : A)
| Raise (e : exn).
Arguments Return {A} a.
Arguments Raise {A} e.

#[global] Instance result_ret : MRet result := fun A a => Return a.
#[global] Instance result_bind : MBind result := fun A B k m =>
  match m with
  | Return a => k a
  | Raise e => Raise e
  end.

#[global] Instance result_fmap : FMap result := fun A B f m =>
  match m with
  | Return a => Return (f a)
  | Raise e => Raise e
  end.

(** [a == b] on these values. *)
Definition py_eq (a b : pyvalue) : bool := bool_decide (a = b).

(** [needle in hay] for two [str]. *)
Fixpoint contains (needle hay : string) : bool :=
  String.prefix needle hay ||
  match hay with
  | EmptyString => false
  | String _ hay' => contains needle hay'
  end.

Definition is_digit (c : ascii) : bool :=
  let n := nat_of_ascii c in (48 <=? n)%nat && (n <=? 57)%nat.

Definition digit_value (c : ascii) : Z := Z.of_nat (nat_of_ascii c) - 48.

(** [str.isspace] on ASCII: space, and the controls 9 to 13. *)
Definition is_space (c : ascii) : bool :=
  let n := nat_of_ascii c in (n =? 32)%nat || ((9 <=? n)%nat && (n <=? 13)%nat).

Fixpoint lstrip (s : string) : string :=
  match s with
  | String c s' => if is_space c then lstrip s' else s
  | EmptyString => s
  end.

Fixpoint all_space (s : string) : bool :=
  match s with
  | String c s' => is_space c && all_space s'
  | EmptyString => true
  end.

(** Decimal digits followed by nothing but white space. *)
Fixpoint digits_then_space (acc : Z) (s : string) : option Z :=
  match s with
  | EmptyString => Some acc
  | String c s' =>
      if is_digit c then digits_then_space (10 * acc + digit_value c) s'
      else if all_space s then Some acc else None
  end.

(** The literals [int] accepts in base ten: white space, an optional
    sign, one digit or more, white space. *)
Definition parse_int (s : string) : option Z :=
  let s := lstrip s in
  let '(sign, body) :=
    match s with
    | String "-" t => (-1, t)
    | String "+" t => (1, t)
    | _ => (1, s)
    end in
  match body with
  | String c _ =>
      if is_digit c then Z.mul sign <$> digits_then_space 0 body else None
  | EmptyString => None
  end.

(** The builtin [int(x)]: the identity on an [int], the literal's value on
    a [str] (ValueError when it is no literal), TypeError on [None]. *)
Definition py_int (v : pyvalue) : result Z :=
  match v with
  | PyNone => Raise TypeError
  | PyInt n => Return n
  | PyStr s =>
      match parse_int s with
      | Some n => Return n
      | None => Raise ValueError
      end
  end.

End Py.
Export Py.

(** ** [re.findall(r'ANS[0-9]+W', line)] *)

Module Re.

(** The longest run of digits a string starts with, and what follows. *)
Fixpoint span_digits (s : string) : string * string :=
  match s with
  | String c s' =>
      if is_digit c
      then let '(d, r) := span_digits s' in (String c d, r)
      else (EmptyString, s)
  | EmptyString => (EmptyString, EmptyString)
  end.

(** The text [ANS[0-9]+W] matches at the very start of [s], if any.  The
    digits are taken greedily; giving one back would ask a digit to be
    the [W], so the greedy run decides. *)
Definition match_here (s : string) : option string :=
  match s with
  | String "A" (String "N" (String "S" t)) =>
      match span_digits t with
      | (String d ds, String "W" _) => Some ("ANS" +:+ String d ds +:+ "W")
      | _ => None
      end
  | _ => None
  end.

(** Left to right, not overlapping: after a match the scan resumes behind
    it, [skip] counting the characters of the match still to pass. *)
Fixpoint findall_from (skip : nat) (s : string) : list string :=
  match s with
  | EmptyString => []
  | String _ s' =>
      match skip with
      | S k => findall_from k s'
      | O =>
          match match_here s with
          | Some m => m :: findall_from (String.length m - 1) s'
          | None => findall_from 0 s'
          end
      end
  end.

Definition findall (line : string) : list string := findall_from 0 line.

End Re.

(** ** The imported vocabularies and the scheduler *)

(** Modelled from the spec: the six members of [localq]'s [Status], which
    the module imports; each is the string its name spells. *)
Module Status.
Definition COMPLETED : pyvalue := PyStr "COMPLETED".
Definition FAILED : pyvalue := PyStr "FAILED".
Definition PENDING : pyvalue := PyStr "PENDING".
Definition RUNNING : pyvalue := PyStr "RUNNING".
Definition CANCELLED : pyvalue := PyStr "CANCELLED".
Definition NOT_FOUND : pyvalue := PyStr "NOT_FOUND".

Definition known : list pyvalue :=
  [COMPLETED; FAILED; PENDING; RUNNING; CANCELLED; NOT_FOUND].
End Status.

(** Modelled from the spec: the members of [arteria.web.state.State] the
    module uses, imported as [arteria_state]. *)
Module arteria_state.
Definition NONE : string := "none".
Definition PENDING : string := "pending".
Definition STARTED : string := "started".
Definition DONE : string := "done".
Definition ERROR : string := "error".
Definition CANCELLED : string := "cancelled".
End arteria_state.

(** The fields of a [localq] job the adapter reads: [job.cmd], [job.stdout]
    and [job.proc.returncode] ([proc] is [None] before the launch,
    [returncode] is [None] while the process runs). *)
Record Popen : Type := { returncode : option Z }.

Record Job : Type := {
  cmd : string;
  stdout : pyvalue;
  proc : option Popen
}.

(** The operations of [LocalQServer] the adapter calls, over the scheduler's
    own state [S].  [add] takes [cmd], the cores and the run directory by
    position and [stdout], [stderr] by keyword, in this order.  The three
    that change the scheduler return its next state; the three queries
    read it. *)
Class LocalQServer (S : Type) : Type := {
  add : S → pyvalue → pyvalue → pyvalue → pyvalue → pyvalue → result pyvalue * S;
  stop_job_with_id : S → pyvalue → result pyvalue * S;
  stop_all_jobs : S → result pyvalue * S;
  get_job_with_id : S → pyvalue → result (option Job);
  get_status : S → pyvalue → result pyvalue;
  get_status_all : S → result (gmap pyvalue pyvalue)
}.

(** The files [open] can read, each as the lines its iteration yields. *)
Definition filesystem : Type := gmap string (list string).

(** [open(path)] for reading: TypeError unless [path] is a [str], IOError
    when no such file exists. *)
Definition open (fs : filesystem) (path : pyvalue) : result (list string) :=
  match path with
  | PyStr p =>
      match fs !! p with
      | Some lines => Return lines
      | None => Raise IOError
      end
  | _ => Raise TypeError
  end.

(** ** [class JobRunnerAdapter]: every method is left to the subclasses *)

Module JobRunnerAdapter.
Definition start (cmd nbr_of_cores run_dir stdout stderr : pyvalue) : result pyvalue :=
  Raise NotImplementedError.
Definition stop (job_id : pyvalue) : result pyvalue := Raise NotImplementedError.
Definition stop_all : result pyvalue := Raise NotImplementedError.
Definition status (job_id : pyvalue) : result string := Raise NotImplementedError.
Definition status_all : result (gmap pyvalue string) := Raise NotImplementedError.
End JobRunnerAdapter.

(** ** [class LocalQAdapter(JobRunnerAdapter)] *)

Module LocalQAdapter.

(** The static method [localq2arteria_status]: an [if]/[elif] chain on
    [==], with [NONE] in the last two branches. *)
Definition localq2arteria_status (status : pyvalue) : string :=
  if py_eq status Status.COMPLETED then arteria_state.DONE
  else if py_eq status Status.FAILED then arteria_state.ERROR
  else if py_eq status Status.PENDING then arteria_state.PENDING
  else if py_eq status Status.RUNNING then arteria_state.STARTED
  else if py_eq status Status.CANCELLED then arteria_state.CANCELLED
  else if py_eq status Status.NOT_FOUND then arteria_state.NONE
  else arteria_state.NONE.

Section Adapter.
Context {S : Type} `{!LocalQServer S}.

(** The instance attributes [__init__] sets. *)
Record t : Type := {
  nbr_of_cores : pyvalue;
  whitelisted_warnings : list string;
  server : S
}.

Definition with_server (self : t) (s : S) : t :=
  {| nbr_of_cores := nbr_of_cores self;
     whitelisted_warnings := whitelisted_warnings self;
     server := s |}.

(** The objects passed between the methods. *)
Inductive pyobj : Type :=
| ObjNone
| ObjJob (job : Job)
| ObjAdapter (self : t).

Definition job_obj (j : option Job) : pyobj :=
  match j with Some job => ObjJob job | None => ObjNone end.

(** Attribute reads; an object without the attribute raises. *)
Definition attr_cmd (o : pyobj) : result string :=
  match o with ObjJob job => Return (cmd job) | _ => Raise AttributeError end.
Definition attr_stdout (o : pyobj) : result pyvalue :=
  match o with ObjJob job => Return (stdout job) | _ => Raise AttributeError end.
Definition attr_proc (o : pyobj) : result (option Popen) :=
  match o with ObjJob job => Return (proc job) | _ => Raise AttributeError end.
Definition attr_returncode (p : option Popen) : result (option Z) :=
  match p with Some p => Return (returncode p) | None => Raise AttributeError end.

(** [start], [stop], [stop_all]: one scheduler call each, whose answer is
    returned; only [self.server] moves. *)
Definition start (self : t) (cmd nbr_of_cores run_dir stdout stderr : pyvalue)
  : result pyvalue * t :=
  let '(r, s) := add (server self) cmd nbr_of_cores run_dir stdout stderr in
  (r, with_server self s).

Definition stop (self : t) (job_id : pyvalue) : result pyvalue * t :=
  let '(r, s) := stop_job_with_id (server self) job_id in
  (r, with_server self s).

Definition stop_all (self : t) : result pyvalue * t :=
  let '(r, s) := stop_all_jobs (server self) in
  (r, with_server self s).

(** The name [self] inside [_parse_dsmc_return_code]: the function has no
    such parameter and the module no such global. *)
Definition name_self : result t := Raise NameError.

(** [for warning in warnings: if warning not in self.whitelisted_warnings:
    return ERROR], then [return DONE]. *)
Fixpoint scan_warnings (warnings : list string) : result string :=
  match warnings with
  | [] => Return arteria_state.DONE
  | warning :: rest =>
      self ← name_self;
      if bool_decide (warning ∈ whitelisted_warnings self)
      then scan_warnings rest
      else Return arteria_state.ERROR
  end.

(** [def _parse_dsmc_return_code(job)]: one formal parameter, so [args]
    must be one object. *)
Definition _parse_dsmc_return_code (fs : filesystem) (args : list pyobj)
  : result string :=
  match args with
  | [job] =>
      p ← attr_proc job;
      rc ← attr_returncode p;
      if bool_decide (rc = Some 8) then
        path ← attr_stdout job;
        dsmc_log ← open fs path;
        scan_warnings (List.concat (Re.findall <$> dsmc_log))
      else Return arteria_state.ERROR
  | _ => Raise TypeError
  end.

(** [status]: the call [self._parse_dsmc_return_code(job)] goes through
    the bound method, which passes [self] before [job]. *)
Definition status (fs : filesystem) (self : t) (job_id : pyvalue) : result string :=
  n ← py_int job_id;
  found ← get_job_with_id (server self) (PyInt n);
  let job := job_obj found in
  raw ← get_status (server self) job_id;
  let arteria_status := localq2arteria_status raw in
  if String.eqb arteria_status arteria_state.ERROR then
    c ← attr_cmd job;
    if contains "dsmc" c then
      c' ← attr_cmd job;
      if negb (contains "md5sum" c')
      then _parse_dsmc_return_code fs [ObjAdapter self; job]
      else Return arteria_status
    else Return arteria_status
  else Return arteria_status.

(** [status_all]: a fresh dict filled from the scheduler's, key by key. *)
Definition status_all (self : t) : result (gmap pyvalue string) :=
  statuses ← get_status_all (server self);
  Return (map_fold (λ k v jobs_and_status, <[k := localq2arteria_status v]> jobs_and_status)
                   ∅ statuses).

End Adapter.

Arguments t S : clear implicits.
Arguments pyobj S : clear implicits.

End LocalQAdapter.

(** ** A small scheduler, to run the adapter on concrete jobs

    Jobs are kept with their raw status under the id they were given.  A
    launch asking for more cores than the budget is refused with [None]. *)

Module TestServer.

Record state : Type := {
  budget : Z;
  table : gmap pyvalue (Job * pyvalue)
}.

Definition fresh_id (s : state) : pyvalue := PyInt (Z.of_nat (size (table s)) + 1).

Definition cancel (entry : Job * pyvalue) : Job * pyvalue := (entry.1, Status.CANCELLED).

Definition add_job (s : state) (cmd nbr_of_cores run_dir stdout stderr : pyvalue)
  : result pyvalue * state :=
  match cmd, nbr_of_cores with
  | PyStr c, PyInt k =>
      if (k <=? budget s)%Z then
        let job := {| cmd := c; stdout := stdout; proc := None |} in
        (Return (fresh_id s),
         {| budget := budget s; table := <[fresh_id s := (job, Status.PENDING)]> (table s) |})
      else (Return PyNone, s)
  | _, _ => (Raise TypeError, s)
  end.

Definition stop_job (s : state) (job_id : pyvalue) : result pyvalue * state :=
  match table s !! job_id with
  | Some entry =>
      (Return job_id, {| budget := budget s; table := <[job_id := cancel entry]> (table s) |})
  | None => (Return PyNone, s)
  end.

Definition stop_jobs (s : state) : result pyvalue * state :=
  (Return PyNone, {| budget := budget s; table := cancel <$> table s |}).

Definition job_with_id (s : state) (job_id : pyvalue) : result (option Job) :=
  Return (fst <$> table s !! job_id).

Definition status_of (s : state) (job_id : pyvalue) : result pyvalue :=
  Return (from_option snd Status.NOT_FOUND (table s !! job_id)).

Definition status_of_all (s : state) : result (gmap pyvalue pyvalue) :=
  Return (snd <$> table s).

#[global] Instance scheduler : LocalQServer state := {|
  add := add_job;
  stop_job_with_id := stop_job;
  stop_all_jobs := stop_jobs;
  get_job_with_id := job_with_id;
  get_status := status_of;
  get_status_all := status_of_all
|}.

(** A failed job whose process ended with [rc], writing to [/log/<name>]. *)
Definition failed (c : string) (log : string) (rc : Z) : Job * pyvalue :=
  ({| cmd := c; stdout := PyStr log; proc := Some {| returncode := Some rc |} |},
   Status.FAILED).

(** Job 1: an upload that ended with code 8 and one whitelisted warning.
    Job 2: the same with a warning off the whitelist.
    Job 3: an upload that ended with code 12.
    Job 4: a checksum run over an upload directory, code 8.
    Job 5: an upload with code 8 whose log was never written. *)
Definition job1 := failed "dsmc archive /data/run1 -subdir=yes" "/log/1" 8.
Definition job2 := failed "dsmc archive /data/run2 -subdir=yes" "/log/2" 8.
Definition job3 := failed "dsmc archive /data/run3 -subdir=yes" "/log/3" 12.
Definition job4 := failed "cd /data/dsmc_run4 && md5sum -c checksums.md5" "/log/4" 8.
Definition job5 := failed "dsmc archive /data/run5 -subdir=yes" "/log/5" 8.

Definition jobs : gmap pyvalue (Job * pyvalue) :=
  <[PyInt 1 := job1]> (<[PyInt 2 := job2]> (<[PyInt 3 := job3]>
  (<[PyInt 4 := job4]> (<[PyInt 5 := job5]> ∅)))).

Definition log1 : list string :=
  ["ANS1809W Session is lost; initializing session reopen procedure.";
   "Archive processing of '/data/run1' finished without failure."].
Definition log2 : list string :=
  ["ANS1809W Session is lost; initializing session reopen procedure.";
   "ANS4037W Object changed during processing. Object skipped."].
Definition log3 : list string :=
  ["ANS1017E Session rejected: TCP/IP connection failure."].
Definition log4 : list string :=
  ["ANS1809W Session is lost; initializing session reopen procedure."].

Definition files : filesystem :=
  <["/log/1" := log1]> (<["/log/2" := log2]> (<["/log/3" := log3]>
  (<["/log/4" := log4]> ∅))).

Definition adapter : LocalQAdapter.t state := {|
  LocalQAdapter.nbr_of_cores := PyInt 4;
  LocalQAdapter.whitelisted_warnings := ["ANS1809W"; "ANS2042W"];
  LocalQAdapter.server := {| budget := 4; table := jobs |}
|}.

End TestServer.

(** ** The spec's reading of the forwarding methods *)

Module Spec.
Section Forward.
Context {S : Type}.

(** "Pure forwarding to the underlying scheduler's equivalent
    operations": the answer is the scheduler's answer to the one call,
    the adapter keeps its settings, and its scheduler is the one that
    call left. *)
Definition pure_forward (call : S → result pyvalue * S) (self : LocalQAdapter.t S)
  : result pyvalue * LocalQAdapter.t S :=
  ((call (LocalQAdapter.server self)).1,
   {| LocalQAdapter.nbr_of_cores := LocalQAdapter.nbr_of_cores self;
      LocalQAdapter.whitelisted_warnings := LocalQAdapter.whitelisted_warnings self;
      LocalQAdapter.server := (call (LocalQAdapter.server self)).2 |}).
End Forward.
End Spec.

(** ** What the further properties speak of *)

(** The members of [arteria_state] that [localq2arteria_status] can return. *)
Definition caller_statuses : list string :=
  [arteria_state.DONE; arteria_state.ERROR; arteria_state.PENDING;
   arteria_state.STARTED; arteria_state.CANCELLED; arteria_state.NONE].

(** The texts of the pattern [ANS[0-9]+W]. *)
Fixpoint all_digits (s : string) : bool :=
  match s with
  | EmptyString => true
  | String c s' => is_digit c && all_digits s'
  end.

Definition is_warning_token (tok : string) : Prop :=
  ∃ digits, tok = "ANS" +:+ digits +:+ "W" ∧ digits ≠ "" ∧ all_digits digits = true.

(** A caller's calls of the three forwarding methods, one after the other,
    on the adapter and, for comparison, on the scheduler itself. *)
Module Calls.
Section Calls.
Context {S : Type} `{!LocalQServer S}.

Inductive call : Type :=
| Start (cmd nbr_of_cores run_dir stdout stderr : pyvalue)
| Stop (job_id : pyvalue)
| StopAll.

Definition on_adapter (self : LocalQAdapter.t S) (c : call)
  : result pyvalue * LocalQAdapter.t S :=
  match c with
  | Start cmd nbr_of_cores run_dir stdout stderr =>
      LocalQAdapter.start self cmd nbr_of_cores run_dir stdout stderr
  | Stop job_id => LocalQAdapter.stop self job_id
  | StopAll => LocalQAdapter.stop_all self
  end.

Definition on_server (s : S) (c : call) : result pyvalue * S :=
  match c with
  | Start cmd nbr_of_cores run_dir stdout stderr =>
      add s cmd nbr_of_cores run_dir stdout stderr
  | Stop job_id => stop_job_with_id s job_id
  | StopAll => stop_all_jobs s
  end.

(** The answers of the calls, in order, and the object they leave. *)
Fixpoint run {X : Type} (step : X → call → result pyvalue * X) (x : X) (cs : list call)
  : list (result pyvalue) * X :=
  match cs with
  | [] => ([], x)
  | c :: cs' =>
      let '(r, x') := step x c in
      let '(rs, x'') := run step x' cs' in
      (r :: rs, x'')
  end.

End Calls.
Arguments call : clear implicits.
End Calls.

(** More jobs for the scheduler above.  Job 6: an upload that went through.
    Job 7: a copy that failed.  The last one: the failed upload of job 1,
    filed under the [str] id ["8"]. *)
Module MoreJobs.

Definition job6 : Job * pyvalue :=
  ({| cmd := "dsmc archive /data/run6 -subdir=yes";
      stdout := PyStr "/log/6";
      proc := Some {| returncode := Some 0 |} |},
   Status.COMPLETED).

Definition job7 : Job * pyvalue := TestServer.failed "rsync -a /data/run7 /backup" "/log/7" 23.

Definition jobs : gmap pyvalue (Job * pyvalue) :=
  <[PyInt 6 := job6]> (<[PyInt 7 := job7]> (<[PyStr "8" := TestServer.job1]> TestServer.jobs)).

Definition adapter : LocalQAdapter.t TestServer.state := {|
  LocalQAdapter.nbr_of_cores := PyInt 2;
  LocalQAdapter.whitelisted_warnings := [];
  LocalQAdapter.server := {| TestServer.budget := 2; TestServer.table := jobs |}
|}.

End MoreJobs.

(** * Properties *)

Import LocalQAdapter.

Lemma bind_Return {A B} (a : A) (k : A → result B) : (Return a ≫= k) = k a.
Proof. reflexivity. Qed.

Lemma bind_Raise {A B} (e : exn) (k : A → result B) : (Raise e ≫= k) = Raise e.
Proof. reflexivity. Qed.

(** The dict [status_all] builds key by key is the scheduler's dict with
    every value translated. *)
Lemma map_fold_translate (statuses : gmap pyvalue pyvalue) :
  map_fold (λ k v acc, <[k := localq2arteria_status v]> acc) ∅ statuses
  = localq2arteria_status <$> statuses.
Proof.
  apply (map_fold_weak_ind (λ acc m, acc = localq2arteria_status <$> m)).
  - by rewrite fmap_empty.
  - intros k v m acc _ ->. by rewrite fmap_insert.
Qed.

(** C1: [localq2arteria_status] sends COMPLETED to "done", FAILED to
    "error", PENDING to "pending", RUNNING to "started", CANCELLED to
    "cancelled" and NOT_FOUND to "none"; every value that is none of the
    six goes to "none". *)
Theorem localq2arteria_status_table :
  localq2arteria_status Status.COMPLETED = "done" ∧
  localq2arteria_status Status.FAILED = "error" ∧
  localq2arteria_status Status.PENDING = "pending" ∧
  localq2arteria_status Status.RUNNING = "started" ∧
  localq2arteria_status Status.CANCELLED = "cancelled" ∧
  localq2arteria_status Status.NOT_FOUND = "none" ∧
  ∀ status : pyvalue, status ∉ Status.known → localq2arteria_status status = "none".
Proof.
  repeat split.
  intros status Hout. unfold localq2arteria_status, py_eq.
  repeat case_bool_decide; try reflexivity; subst status;
    exfalso; apply Hout; unfold Status.known; set_solver.
Qed.

Lemma localq2arteria_status_table_witness :
  (PyStr "ZOMBIE" ∉ Status.known) ∧ (PyNone ∉ Status.known) ∧
  localq2arteria_status (PyStr "ZOMBIE") = "none" ∧
  localq2arteria_status PyNone = "none".
Proof.
  assert (H1 : PyStr "ZOMBIE" ∉ Status.known) by (apply (bool_decide_unpack _); vm_compute; exact I).
  assert (H2 : PyNone ∉ Status.known) by (apply (bool_decide_unpack _); vm_compute; exact I).
  split; [exact H1|]. split; [exact H2|]. split.
  - apply (proj2 (proj2 (proj2 (proj2 (proj2 (proj2 localq2arteria_status_table)))))
             (PyStr "ZOMBIE") H1).
  - apply (proj2 (proj2 (proj2 (proj2 (proj2 (proj2 localq2arteria_status_table)))))
             PyNone H2).
Defined.

Section Properties.
Context {S : Type} `{!LocalQServer S}.
Implicit Types (self : t S) (job_id raw : pyvalue) (fs : filesystem) (job : Job).

(** Unfolds [status] along the three reads it starts with. *)
Ltac status_reads Hint Hjob Hraw :=
  unfold status; rewrite Hint, bind_Return, Hjob, bind_Return, Hraw, bind_Return; cbv zeta.

(** Whenever [status] reaches the call of [_parse_dsmc_return_code], the
    call itself fails: two objects for one parameter. *)
Lemma status_heuristic_call fs self job_id n job raw :
  py_int job_id = Return n →
  get_job_with_id (server self) (PyInt n) = Return (Some job) →
  get_status (server self) job_id = Return raw →
  localq2arteria_status raw = arteria_state.ERROR →
  contains "dsmc" (cmd job) = true →
  contains "md5sum" (cmd job) = false →
  status fs self job_id = Raise TypeError.
Proof.
  intros Hint Hjob Hraw Herr Hdsmc Hmd5.
  status_reads Hint Hjob Hraw.
  rewrite Herr. simpl. rewrite Hdsmc, Hmd5. reflexivity.
Qed.

Lemma status_all_translate self :
  status_all self
  = (λ statuses : gmap pyvalue pyvalue, localq2arteria_status <$> statuses)
      <$> get_status_all (server self).
Proof.
  unfold status_all. destruct (get_status_all (server self)) as [statuses|e]; [|done].
  by rewrite bind_Return, map_fold_translate.
Qed.

(** The first warning of the loop already fails on the name [self]. *)
Lemma scan_warnings_unbound_self (warnings : list string) :
  scan_warnings (S:=S) warnings =
  match warnings with
  | [] => Return arteria_state.DONE
  | _ :: _ => Raise NameError
  end.
Proof. by destruct warnings. Qed.

(** The body of [_parse_dsmc_return_code] on a job alone. *)
Lemma parse_dsmc_return_code_body fs job p :
  proc job = Some p →
  _parse_dsmc_return_code (S:=S) fs [ObjJob job] =
  if bool_decide (returncode p = Some 8)
  then open fs (stdout job) ≫= λ dsmc_log, scan_warnings (S:=S) (List.concat (Re.findall <$> dsmc_log))
  else Return arteria_state.ERROR.
Proof.
  intros Hproc. unfold _parse_dsmc_return_code, attr_proc, attr_stdout.
  by rewrite !bind_Return, Hproc.
Qed.

(** C2 (amended): the heuristic has no handler of its own.  Applied to a
    job whose return code is not 8, [_parse_dsmc_return_code] returns
    "error" and reads no log; with return code 8 it opens the stdout log,
    and when that fails the exception goes to the caller instead of
    "error". *)
Theorem parse_dsmc_return_code_unguarded fs job p :
  proc job = Some p →
  (returncode p ≠ Some 8 →
     _parse_dsmc_return_code (S:=S) fs [ObjJob job] = Return arteria_state.ERROR) ∧
  (∀ e, returncode p = Some 8 → open fs (stdout job) = Raise e →
     _parse_dsmc_return_code (S:=S) fs [ObjJob job] = Raise e).
Proof.
  intros Hproc. rewrite (parse_dsmc_return_code_body _ _ _ Hproc). split.
  - intros Hrc. by rewrite bool_decide_eq_false_2.
  - intros e Hrc Hopen. rewrite bool_decide_eq_true_2 by done.
    by rewrite Hopen.
Qed.

(** C3 (what the code does): a job with the dsmc token and without the
    md5sum token, mapped status "error", return code 8 and a log whose
    warnings are all on the whitelist: [status] raises TypeError; it does
    not return "done".  The body of the heuristic, run on the job alone,
    would return "done" for a log without warnings only: with one, the
    whitelist is looked for under the unbound name [self]. *)
Theorem status_whitelisted_warnings_raises fs self job_id n job raw p dsmc_log :
  py_int job_id = Return n →
  get_job_with_id (server self) (PyInt n) = Return (Some job) →
  get_status (server self) job_id = Return raw →
  localq2arteria_status raw = arteria_state.ERROR →
  contains "dsmc" (cmd job) = true →
  contains "md5sum" (cmd job) = false →
  proc job = Some p → returncode p = Some 8 →
  open fs (stdout job) = Return dsmc_log →
  (∀ warning, warning ∈ List.concat (Re.findall <$> dsmc_log) →
              warning ∈ whitelisted_warnings self) →
  status fs self job_id = Raise TypeError ∧
  _parse_dsmc_return_code (S:=S) fs [ObjJob job] =
    match List.concat (Re.findall <$> dsmc_log) with
    | [] => Return arteria_state.DONE
    | _ :: _ => Raise NameError
    end.
Proof.
  intros Hint Hjob Hraw Herr Hdsmc Hmd5 Hproc Hrc Hopen _.
  split; [eauto using status_heuristic_call|].
  rewrite (parse_dsmc_return_code_body _ _ _ Hproc).
  rewrite bool_decide_eq_true_2 by done.
  rewrite Hopen, bind_Return. apply scan_warnings_unbound_self.
Qed.

(** C4 (what the code does): the same job with a warning in its log that
    is not on the whitelist: [status] raises TypeError; it does not
    return "error".  Nor would the body of the heuristic, run on the job
    alone: it raises NameError at the first warning. *)
Theorem status_unlisted_warning_raises fs self job_id n job raw p dsmc_log warning :
  py_int job_id = Return n →
  get_job_with_id (server self) (PyInt n) = Return (Some job) →
  get_status (server self) job_id = Return raw →
  localq2arteria_status raw = arteria_state.ERROR →
  contains "dsmc" (cmd job) = true →
  contains "md5sum" (cmd job) = false →
  proc job = Some p → returncode p = Some 8 →
  open fs (stdout job) = Return dsmc_log →
  warning ∈ List.concat (Re.findall <$> dsmc_log) →
  warning ∉ whitelisted_warnings self →
  status fs self job_id = Raise TypeError ∧
  _parse_dsmc_return_code (S:=S) fs [ObjJob job] = Raise NameError.
Proof.
  intros Hint Hjob Hraw Herr Hdsmc Hmd5 Hproc Hrc Hopen Hin _.
  split; [eauto using status_heuristic_call|].
  rewrite (parse_dsmc_return_code_body _ _ _ Hproc).
  rewrite bool_decide_eq_true_2 by done.
  rewrite Hopen, bind_Return, scan_warnings_unbound_self.
  destruct (List.concat _); [|reflexivity]. by apply not_elem_of_nil in Hin.
Qed.

(** C5 (what the code does): a job with the dsmc token and without the
    md5sum token, mapped status "error" and a return code other than 8:
    [status] raises TypeError whatever the log holds; it does not return
    "error", which is what the body of the heuristic, run on the job alone,
    returns. *)
Theorem status_other_return_code_raises fs self job_id n job raw p :
  py_int job_id = Return n →
  get_job_with_id (server self) (PyInt n) = Return (Some job) →
  get_status (server self) job_id = Return raw →
  localq2arteria_status raw = arteria_state.ERROR →
  contains "dsmc" (cmd job) = true →
  contains "md5sum" (cmd job) = false →
  proc job = Some p → returncode p ≠ Some 8 →
  status fs self job_id = Raise TypeError ∧
  _parse_dsmc_return_code (S:=S) fs [ObjJob job] = Return arteria_state.ERROR.
Proof.
  intros Hint Hjob Hraw Herr Hdsmc Hmd5 Hproc Hrc.
  split; [eauto using status_heuristic_call|].
  rewrite (parse_dsmc_return_code_body _ _ _ Hproc).
  by rewrite bool_decide_eq_false_2.
Qed.

(** C6: for a job whose command holds the md5sum token, [status] returns
    the mapped status as it is, whatever the status, the other tokens, the
    return code and the log. *)
Theorem status_md5sum_unchanged fs self job_id n job raw :
  py_int job_id = Return n →
  get_job_with_id (server self) (PyInt n) = Return (Some job) →
  get_status (server self) job_id = Return raw →
  contains "md5sum" (cmd job) = true →
  status fs self job_id = Return (localq2arteria_status raw).
Proof.
  intros Hint Hjob Hraw Hmd5.
  status_reads Hint Hjob Hraw.
  destruct (String.eqb _ _); [|reflexivity]. simpl.
  destruct (contains "dsmc" (cmd job)); [|reflexivity].
  by rewrite Hmd5.
Qed.

(** C8: [start], [stop] and [stop_all] are the spec's pure forwards of
    [add], [stop_job_with_id] and [stop_all_jobs], on the arguments as
    they came. *)
Theorem start_stop_forward self (cmd nbr_of_cores run_dir stdout stderr job_id : pyvalue) :
  start self cmd nbr_of_cores run_dir stdout stderr
    = Spec.pure_forward (λ s, add s cmd nbr_of_cores run_dir stdout stderr) self ∧
  stop self job_id = Spec.pure_forward (λ s, stop_job_with_id s job_id) self ∧
  stop_all self = Spec.pure_forward stop_all_jobs self.
Proof.
  unfold start, stop, stop_all, Spec.pure_forward, with_server.
  repeat split.
  - by destruct (add _ _ _ _ _ _).
  - by destruct (stop_job_with_id _ _).
  - by destruct (stop_all_jobs _).
Qed.


(** C10: [status] needs a job id [int] accepts.  When [int(job_id)]
    raises, so does [status].  Otherwise the job is fetched under
    [int(job_id)] and the raw status is asked for under [job_id] itself:
    a failure of either read is raised, and their answers decide the
    result.  [stop] hands [job_id] on as it is, and [status_all] keeps the
    scheduler's keys. *)
Theorem status_needs_int_job_id fs self job_id :
  (∀ e, py_int job_id = Raise e → status fs self job_id = Raise e) ∧
  (∀ n e, py_int job_id = Return n →
     get_job_with_id (server self) (PyInt n) = Raise e →
     status fs self job_id = Raise e) ∧
  (∀ n found e, py_int job_id = Return n →
     get_job_with_id (server self) (PyInt n) = Return found →
     get_status (server self) job_id = Raise e →
     status fs self job_id = Raise e) ∧
  (∀ n found raw, py_int job_id = Return n →
     get_job_with_id (server self) (PyInt n) = Return found →
     get_status (server self) job_id = Return raw →
     localq2arteria_status raw ≠ arteria_state.ERROR →
     status fs self job_id = Return (localq2arteria_status raw)) ∧
  (stop self job_id).1 = (stop_job_with_id (server self) job_id).1 ∧
  (∀ statuses, get_status_all (server self) = Return statuses →
     ∃ jobs_and_status, status_all self = Return jobs_and_status ∧
                        dom jobs_and_status = dom statuses).
Proof.
  repeat split.
  - intros e Hint. unfold status. by rewrite Hint.
  - intros n e Hint Hjob. unfold status. by rewrite Hint, bind_Return, Hjob.
  - intros n found e Hint Hjob Hraw. unfold status.
    by rewrite Hint, bind_Return, Hjob, bind_Return, Hraw.
  - intros n found raw Hint Hjob Hraw Hne.
    status_reads Hint Hjob Hraw.
    apply String.eqb_neq in Hne. by rewrite Hne.
  - unfold stop. by destruct (stop_job_with_id _ _).
  - intros statuses Hall. exists (localq2arteria_status <$> statuses). split.
    + by rewrite status_all_translate, Hall.
    + apply dom_fmap_L.
Qed.

End Properties.

(** ** The theorems on concrete jobs *)

Import TestServer.

Example findall_tokens :
  Re.findall "x ANS1809W ANS12 ANSW ANS3WANS44W" = ["ANS1809W"; "ANS3W"; "ANS44W"].
Proof. reflexivity. Qed.

Example py_int_literal : py_int (PyStr " -42 ") = Return (-42).
Proof. reflexivity. Qed.

Example py_int_no_literal : py_int (PyStr "4 2") = Raise ValueError.
Proof. reflexivity. Qed.

Example contains_token : contains "dsmc" "cd /x && dsmc archive /x" = true.
Proof. reflexivity. Qed.

(** The id ["4"] fetches job 4 but is no key of the statuses. *)
Example status_of_str_id :
  status files adapter (PyInt 4) = Return "error" ∧
  status files adapter (PyStr "4") = Return "none".
Proof. split; vm_compute; reflexivity. Qed.

(** C2, as stated, fails on job 5: the heuristic is triggered, [status]
    raises TypeError, and the heuristic applied to the job alone raises the
    IOError of the missing log. *)
Lemma heuristic_raises_cex :
  localq2arteria_status job5.2 = "error" ∧
  contains "dsmc" (cmd job5.1) = true ∧
  contains "md5sum" (cmd job5.1) = false ∧
  status files adapter (PyInt 5) = Raise TypeError ∧
  _parse_dsmc_return_code (S:=state) files [ObjJob job5.1] = Raise IOError.
Proof. repeat split; vm_compute; reflexivity. Qed.

Lemma parse_dsmc_return_code_unguarded_witness :
  _parse_dsmc_return_code (S:=state) files [ObjJob job3.1] = Return "error" ∧
  _parse_dsmc_return_code (S:=state) files [ObjJob job5.1] = Raise IOError.
Proof.
  split.
  - apply (proj1 (parse_dsmc_return_code_unguarded (S:=state) files job3.1
                    {| returncode := Some 12 |} eq_refl)).
    vm_compute. discriminate.
  - apply (proj2 (parse_dsmc_return_code_unguarded (S:=state) files job5.1
                    {| returncode := Some 8 |} eq_refl) IOError).
    + reflexivity.
    + vm_compute. reflexivity.
Defined.

Lemma status_whitelisted_warnings_raises_witness :
  List.concat (Re.findall <$> log1) = ["ANS1809W"] ∧
  status files adapter (PyInt 1) = Raise TypeError ∧
  _parse_dsmc_return_code (S:=state) files [ObjJob job1.1] = Raise NameError.
Proof.
  split; [vm_compute; reflexivity|].
  apply (status_whitelisted_warnings_raises files adapter (PyInt 1) 1 job1.1 job1.2
           {| returncode := Some 8 |} log1);
    try (vm_compute; reflexivity).
  intros warning Hin. apply (bool_decide_unpack _).
  vm_compute in Hin. apply list_elem_of_singleton in Hin. subst warning.
  vm_compute. exact I.
Defined.

Lemma status_unlisted_warning_raises_witness :
  List.concat (Re.findall <$> log2) = ["ANS1809W"; "ANS4037W"] ∧
  status files adapter (PyInt 2) = Raise TypeError ∧
  _parse_dsmc_return_code (S:=state) files [ObjJob job2.1] = Raise NameError.
Proof.
  split; [vm_compute; reflexivity|].
  apply (status_unlisted_warning_raises files adapter (PyInt 2) 2 job2.1 job2.2
           {| returncode := Some 8 |} log2 "ANS4037W");
    try (vm_compute; reflexivity);
    apply (bool_decide_unpack _); vm_compute; exact I.
Defined.

Lemma status_other_return_code_raises_witness :
  status files adapter (PyInt 3) = Raise TypeError ∧
  _parse_dsmc_return_code (S:=state) files [ObjJob job3.1] = Return "error".
Proof.
  apply (status_other_return_code_raises files adapter (PyInt 3) 3 job3.1 job3.2
           {| returncode := Some 12 |});
    try (vm_compute; reflexivity).
  vm_compute. discriminate.
Defined.

Lemma status_md5sum_unchanged_witness :
  contains "dsmc" (cmd job4.1) = true ∧
  status files adapter (PyInt 4) = Return "error".
Proof.
  split; [vm_compute; reflexivity|].
  apply (status_md5sum_unchanged files adapter (PyInt 4) 4 job4.1 job4.2);
    vm_compute; reflexivity.
Defined.



Lemma status_needs_int_job_id_witness :
  status files adapter (PyStr "run-7") = Raise ValueError ∧
  status files adapter PyNone = Raise TypeError ∧
  status files adapter (PyStr "4") = Return "none".
Proof.
  split; [|split].
  - apply (proj1 (status_needs_int_job_id files adapter (PyStr "run-7")) ValueError).
    vm_compute. reflexivity.
  - apply (proj1 (status_needs_int_job_id files adapter PyNone) TypeError).
    reflexivity.
  - apply (proj1 (proj2 (proj2 (proj2 (status_needs_int_job_id files adapter (PyStr "4")))))
             4 (Some job4.1) Status.NOT_FOUND);
      try (vm_compute; reflexivity).
    vm_compute. discriminate.
Defined.

(** C7 (what the code does): [status_all] is the scheduler's dict with each
    raw status translated and nothing else, so job 1, an upload with return
    code 8 and whitelisted warnings only, is "error" there; [status] on the
    same job raises TypeError and does not report "done". *)
Theorem status_all_skips_heuristic :
  (∀ (S : Type) `{!LocalQServer S} (self : t S),
     status_all self
     = (λ statuses : gmap pyvalue pyvalue, localq2arteria_status <$> statuses)
         <$> get_status_all (server self)) ∧
  (.!! PyInt 1) <$> status_all adapter = Return (Some "error") ∧
  status files adapter (PyInt 1) = Raise TypeError.
Proof.
  split; [intros; apply status_all_translate|].
  split.
  - rewrite status_all_translate. vm_compute. reflexivity.
  - vm_compute. reflexivity.
Qed.

(** * Further properties of the module *)

(** ** The translation table *)

(** X1: whatever the scheduler reports, the translation is one of the six
    caller statuses. *)
Theorem localq2arteria_status_vocabulary (status : pyvalue) :
  localq2arteria_status status ∈ caller_statuses.
Proof.
  unfold localq2arteria_status, caller_statuses.
  repeat case_match; set_solver.
Qed.

(** X2: on the six raw statuses the translation is one to one. *)
Theorem localq2arteria_status_injective (a b : pyvalue) :
  a ∈ Status.known → b ∈ Status.known →
  localq2arteria_status a = localq2arteria_status b → a = b.
Proof.
  unfold Status.known. intros Ha Hb.
  repeat (apply elem_of_cons in Ha as [->|Ha]); try by apply elem_of_nil in Ha.
  all: repeat (apply elem_of_cons in Hb as [->|Hb]); try by apply elem_of_nil in Hb.
  all: first [reflexivity | vm_compute; discriminate].
Qed.

Lemma localq2arteria_status_injective_witness :
  localq2arteria_status Status.RUNNING = localq2arteria_status (PyStr "RUNNING") ∧
  Status.RUNNING = PyStr "RUNNING".
Proof.
  split; [reflexivity|].
  apply (localq2arteria_status_injective Status.RUNNING (PyStr "RUNNING"));
    [apply (bool_decide_unpack _); vm_compute; exact I
    |apply (bool_decide_unpack _); vm_compute; exact I
    |reflexivity].
Defined.

(** X3: a translation other than "none" tells the raw status: "done" is
    COMPLETED, "error" is FAILED, "pending" is PENDING, "started" is RUNNING
    and "cancelled" is CANCELLED, and nothing else. *)
Theorem localq2arteria_status_preimage (status : pyvalue) :
  (localq2arteria_status status = "done" ↔ status = Status.COMPLETED) ∧
  (localq2arteria_status status = "error" ↔ status = Status.FAILED) ∧
  (localq2arteria_status status = "pending" ↔ status = Status.PENDING) ∧
  (localq2arteria_status status = "started" ↔ status = Status.RUNNING) ∧
  (localq2arteria_status status = "cancelled" ↔ status = Status.CANCELLED).
Proof.
  unfold localq2arteria_status, py_eq.
  repeat case_bool_decide; subst;
    repeat split; intros; first [reflexivity | discriminate | congruence].
Qed.

(** ** [status] *)

Section StatusProperties.
Context {S : Type} `{!LocalQServer S}.
Implicit Types (self : t S) (job_id raw : pyvalue) (fs : filesystem) (job : Job).

(** [status] by cases: the three reads in their order, then the test. *)
Lemma status_cases fs self job_id :
  status fs self job_id =
  match py_int job_id with
  | Raise e => Raise e
  | Return n =>
      match get_job_with_id (server self) (PyInt n) with
      | Raise e => Raise e
      | Return found =>
          match get_status (server self) job_id with
          | Raise e => Raise e
          | Return raw =>
              if String.eqb (localq2arteria_status raw) arteria_state.ERROR then
                match found with
                | None => Raise AttributeError
                | Some job =>
                    if contains "dsmc" (cmd job) && negb (contains "md5sum" (cmd job))
                    then Raise TypeError
                    else Return (localq2arteria_status raw)
                end
              else Return (localq2arteria_status raw)
          end
      end
  end.
Proof.
  unfold status.
  destruct (py_int job_id) as [n|e]; [|reflexivity]. rewrite bind_Return.
  destruct (get_job_with_id _ _) as [found|e]; [|reflexivity]. rewrite bind_Return.
  destruct (get_status _ _) as [raw|e]; [|reflexivity]. rewrite bind_Return. cbv zeta.
  destruct (String.eqb _ _); [|reflexivity].
  destruct found as [job|]; [|reflexivity]. simpl.
  destruct (contains "dsmc" (cmd job)); [|reflexivity]. simpl.
  by destruct (contains "md5sum" (cmd job)).
Qed.

Lemma error_eqb raw :
  String.eqb (localq2arteria_status raw) arteria_state.ERROR = true ↔ raw = Status.FAILED.
Proof.
  rewrite String.eqb_eq. unfold localq2arteria_status, py_eq.
  repeat case_bool_decide; subst; split; intros; first [reflexivity | discriminate | congruence].
Qed.

Lemma done_is_completed raw :
  localq2arteria_status raw = arteria_state.DONE → raw = Status.COMPLETED.
Proof.
  unfold localq2arteria_status, py_eq.
  repeat case_bool_decide; subst; intros; first [reflexivity | discriminate].
Qed.

(** X4: a status that [status] returns is the translation of the raw status
    the scheduler gave for [job_id]; the heuristic never changes one.  If it
    is "error", the job is there and its command is without the dsmc token
    or with the md5sum token. *)
Theorem status_returns_translation fs self job_id st :
  status fs self job_id = Return st →
  ∃ n found raw,
    py_int job_id = Return n ∧
    get_job_with_id (server self) (PyInt n) = Return found ∧
    get_status (server self) job_id = Return raw ∧
    st = localq2arteria_status raw ∧
    (st = "error" →
       ∃ job, found = Some job ∧
              (contains "dsmc" (cmd job) = false ∨ contains "md5sum" (cmd job) = true)).
Proof.
  rewrite status_cases. intros Hst.
  destruct (py_int job_id) as [n|] eqn:Hint; [|discriminate].
  destruct (get_job_with_id _ _) as [found|] eqn:Hjob; [|discriminate].
  destruct (get_status _ _) as [raw|] eqn:Hraw; [|discriminate].
  exists n, found, raw. do 3 (split; [done|]). split.
  - destruct (String.eqb _ _); [|congruence].
    destruct found as [job|]; [|discriminate].
    destruct (_ && _); [discriminate|congruence].
  - intros ->. destruct (String.eqb _ _) eqn:Heq.
    + destruct found as [job|]; [|discriminate]. exists job. split; [reflexivity|].
      destruct (contains "dsmc" (cmd job)); [|by left].
      destruct (contains "md5sum" (cmd job)); [by right|discriminate].
    + apply String.eqb_neq in Heq. unfold arteria_state.ERROR in Heq. congruence.
Qed.

(** X5: [status] says "done" for no job but one the scheduler has as
    COMPLETED: no failed upload is reported done. *)
Theorem status_done_only_completed fs self job_id :
  status fs self job_id = Return "done" →
  get_status (server self) job_id = Return Status.COMPLETED.
Proof.
  rewrite status_cases.
  destruct (py_int job_id) as [n|]; [|discriminate].
  destruct (get_job_with_id _ _) as [found|]; [|discriminate].
  destruct (get_status _ _) as [raw|]; [|discriminate].
  destruct (String.eqb _ _) eqn:Heq.
  - apply error_eqb in Heq. subst raw.
    destruct found as [job|]; [|discriminate]. by destruct (_ && _).
  - intros [= Hdone]. by rewrite (done_is_completed raw Hdone).
Qed.

(** X6: the exceptions of [status]: the one of [int(job_id)], the one of
    either scheduler read, AttributeError for a FAILED status without a job
    object, TypeError for a FAILED job with the dsmc token and without the
    md5sum token; and no other. *)
Theorem status_raises_cases fs self job_id e :
  status fs self job_id = Raise e ↔
  py_int job_id = Raise e ∨
  ∃ n, py_int job_id = Return n ∧
    (get_job_with_id (server self) (PyInt n) = Raise e ∨
     ∃ found, get_job_with_id (server self) (PyInt n) = Return found ∧
       (get_status (server self) job_id = Raise e ∨
        get_status (server self) job_id = Return Status.FAILED ∧
          match found with
          | None => e = AttributeError
          | Some job => e = TypeError ∧ contains "dsmc" (cmd job) = true ∧
                        contains "md5sum" (cmd job) = false
          end)).
Proof.
  rewrite status_cases.
  destruct (py_int job_id) as [n|e1] eqn:Hint.
  2:{ split; [intros [= ->]; by left|]. intros [H|(n & H & _)]; [by injection H as ->|discriminate]. }
  destruct (get_job_with_id (server self) (PyInt n)) as [found|e2] eqn:Hjob.
  2:{ split.
      - intros [= ->]. right. exists n. split; [done|]. by left.
      - intros [H|(n' & Hn & [H|(found & H & _)])]; simplify_eq; congruence. }
  destruct (get_status (server self) job_id) as [raw|e3] eqn:Hraw.
  2:{ split.
      - intros [= ->]. right. exists n. split; [done|]. right. exists found.
        split; [done|]. by left.
      - intros [H|(n' & Hn & [H|(found' & Hf & [H|[H _]])])]; simplify_eq; congruence. }
  destruct (String.eqb _ _) eqn:Heq.
  - apply error_eqb in Heq. subst raw. split.
    + intros Hr. right. exists n. split; [done|]. right. exists found. split; [done|].
      right. split; [done|].
      destruct found as [job|]; [|congruence].
      destruct (contains "dsmc" (cmd job)), (contains "md5sum" (cmd job));
        simpl in Hr; try discriminate. by injection Hr as <-.
    + intros [H|(n' & Hn & [H|(found' & Hf & [H|[_ H]])])]; simplify_eq; try congruence.
      assert (found' = found) as -> by congruence.
      destruct found as [job|]; [|congruence].
      destruct H as (-> & -> & ->). reflexivity.
  - assert (raw ≠ Status.FAILED) as Hne.
    { intros ->. by rewrite (proj2 (error_eqb Status.FAILED)) in Heq. }
    split; [discriminate|].
    intros [H|(n' & Hn & [H|(found' & Hf & [H|[H _]])])]; simplify_eq; congruence.
Qed.

(** X7: when the scheduler has a FAILED status for [job_id] and no job
    object under [int(job_id)], [status] raises AttributeError. *)
Theorem status_failed_without_job fs self job_id n :
  py_int job_id = Return n →
  get_job_with_id (server self) (PyInt n) = Return None →
  get_status (server self) job_id = Return Status.FAILED →
  status fs self job_id = Raise AttributeError.
Proof. intros Hint Hjob Hraw. by rewrite status_cases, Hint, Hjob, Hraw. Qed.

(** X8: [status] reads no log and asks for no whitelist: its outcome is the
    same on every file system and for every setting of the adapter, the
    scheduler being the same. *)
Theorem status_ignores_log_and_whitelist fs fs' self self' job_id :
  server self = server self' →
  status fs self job_id = status fs' self' job_id.
Proof. intros Hsrv. by rewrite !status_cases, Hsrv. Qed.

(** X9: a FAILED job whose command is without the dsmc token is "error". *)
Theorem status_failed_other_command fs self job_id n job :
  py_int job_id = Return n →
  get_job_with_id (server self) (PyInt n) = Return (Some job) →
  get_status (server self) job_id = Return Status.FAILED →
  contains "dsmc" (cmd job) = false →
  status fs self job_id = Return "error".
Proof. intros Hint Hjob Hraw Hno. by rewrite status_cases, Hint, Hjob, Hraw, Hno. Qed.

End StatusProperties.

(** ** [status] beside [status_all], and the forwarding methods in sequence *)

Section AdapterProperties.
Context {S : Type} `{!LocalQServer S}.
Implicit Types (self : t S) (job_id raw : pyvalue) (fs : filesystem).

(** X10: when [status] returns for a job, [status_all] has the same status
    under that id, provided the scheduler's dict holds the raw status it
    gives for the id alone.  The two differ only in that [status] may raise. *)
Theorem status_agrees_with_status_all fs self job_id raw statuses st :
  get_status (server self) job_id = Return raw →
  get_status_all (server self) = Return statuses →
  statuses !! job_id = Some raw →
  status fs self job_id = Return st →
  ∃ jobs_and_status,
    status_all self = Return jobs_and_status ∧ jobs_and_status !! job_id = Some st.
Proof.
  intros Hraw Hall Hkey Hst.
  assert (st = localq2arteria_status raw) as ->.
  { rewrite status_cases, Hraw in Hst.
    destruct (py_int job_id) as [n|]; [|discriminate].
    destruct (get_job_with_id _ _) as [found|]; [|discriminate].
    destruct (String.eqb _ _); [|congruence].
    destruct found as [job|]; [|discriminate].
    destruct (_ && _); [discriminate|congruence]. }
  exists (localq2arteria_status <$> statuses). split.
  - by rewrite status_all_translate, Hall.
  - by rewrite lookup_fmap, Hkey.
Qed.

Lemma on_adapter_on_server self (c : Calls.call) :
  Calls.on_adapter self c =
  ((Calls.on_server (server self) c).1, with_server self (Calls.on_server (server self) c).2).
Proof.
  destruct c; simpl; unfold start, stop, stop_all.
  - by destruct (add _ _ _ _ _ _).
  - by destruct (stop_job_with_id _ _).
  - by destruct (stop_all_jobs _).
Qed.

(** X11: any sequence of [start], [stop] and [stop_all] on the adapter gets
    the answers the same calls get from the scheduler, leaves the scheduler
    where those calls leave it, and leaves [nbr_of_cores] and
    [whitelisted_warnings] as they were. *)
Theorem calls_forwarded self (cs : list Calls.call) :
  (Calls.run Calls.on_adapter self cs).1 = (Calls.run Calls.on_server (server self) cs).1 ∧
  server (Calls.run Calls.on_adapter self cs).2
    = (Calls.run Calls.on_server (server self) cs).2 ∧
  nbr_of_cores (Calls.run Calls.on_adapter self cs).2 = nbr_of_cores self ∧
  whitelisted_warnings (Calls.run Calls.on_adapter self cs).2 = whitelisted_warnings self.
Proof.
  revert self. induction cs as [|c cs IH]; intros self; [done|].
  simpl. rewrite on_adapter_on_server.
  destruct (Calls.on_server (server self) c) as [r s] eqn:Hc. simpl.
  specialize (IH (with_server self s)). simpl in IH.
  destruct (Calls.run Calls.on_adapter (with_server self s) cs) as [rs self'].
  destruct (Calls.run Calls.on_server s cs) as [rs' s']. simpl in *.
  destruct IH as (-> & -> & -> & ->). done.
Qed.

End AdapterProperties.

Lemma status_agrees_with_status_all_witness :
  ∃ jobs_and_status,
    status_all adapter = Return jobs_and_status ∧
    jobs_and_status !! PyInt 4 = Some "error".
Proof.
  apply (status_agrees_with_status_all files adapter (PyInt 4) Status.FAILED
           (snd <$> jobs) "error"); vm_compute; reflexivity.
Defined.

(** ** The token tests and the warning pattern *)

Lemma prefix_append (needle hay : string) :
  String.prefix needle hay = true ↔ ∃ post, hay = needle +:+ post.
Proof.
  revert hay. induction needle as [|a needle IH]; intros hay.
  - split; [|by destruct hay]. intros _. exists hay. by destruct hay.
  - destruct hay as [|b hay]; simpl.
    + split; [done|]. by intros [post H].
    + destruct (ascii_dec a b) as [->|Hne].
      * rewrite IH. split; intros [post H]; exists post; [by rewrite H|by injection H].
      * split; [done|]. intros [post H]. by injection H.
Qed.

Lemma append_cons (c : ascii) (a b : string) : String c a +:+ b = String c (a +:+ b).
Proof. reflexivity. Qed.

Lemma append_nil (a : string) : "" +:+ a = a.
Proof. reflexivity. Qed.

Lemma append_assoc (a b c : string) : (a +:+ b) +:+ c = a +:+ (b +:+ c).
Proof.
  induction a as [|x a IH]; [done|]. by rewrite !append_cons, IH.
Qed.

(** X12: the test [needle in hay] that [status] makes on a command holds
    exactly when the command is some text, the token, and some text. *)
Theorem contains_substring (needle hay : string) :
  contains needle hay = true ↔ ∃ pre post, hay = pre +:+ needle +:+ post.
Proof.
  induction hay as [|c hay IH].
  - change (contains needle "") with (String.prefix needle "" || false).
    rewrite orb_false_r, prefix_append. split.
    + intros [post H]. by exists "", post.
    + intros (pre & post & H). destruct pre; [by exists post|discriminate].
  - change (contains needle (String c hay))
      with (String.prefix needle (String c hay) || contains needle hay).
    rewrite orb_true_iff, prefix_append, IH. split.
    + intros [[post H]|(pre & post & H)].
      * by exists "", post.
      * exists (String c pre), post. by rewrite append_cons, H.
    + intros (pre & post & H). destruct pre as [|c' pre].
      * left. by exists post.
      * right. exists pre, post. rewrite append_cons in H. by injection H.
Qed.

Lemma span_digits_split (s d r : string) :
  Re.span_digits s = (d, r) → s = d +:+ r ∧ all_digits d = true.
Proof.
  revert d r. induction s as [|c s IH]; intros d r; simpl.
  - by intros [= <- <-].
  - destruct (is_digit c) eqn:Hc.
    + destruct (Re.span_digits s) as [d' r'].
      intros [= <- <-]. destruct (IH d' r' eq_refl) as [-> Hd].
      simpl. by rewrite Hc, Hd.
    + by intros [= <- <-].
Qed.

Lemma match_here_token (s m : string) :
  Re.match_here s = Some m → is_warning_token m ∧ ∃ post, s = m +:+ post.
Proof.
  unfold Re.match_here. intros H.
  repeat (case_match; simplify_eq).
  match goal with Hs : Re.span_digits _ = _ |- _ =>
    apply span_digits_split in Hs as [-> Hd] end.
  split.
  - eexists. split; [reflexivity|]. split; [done|]. exact Hd.
  - eexists. simpl. do 3 f_equal. rewrite !append_assoc. simpl. reflexivity.
Qed.

Lemma findall_from_cons (skip : nat) (c : ascii) (s : string) :
  Re.findall_from skip (String c s) =
  match skip with
  | S k => Re.findall_from k s
  | O =>
      match Re.match_here (String c s) with
      | Some m => m :: Re.findall_from (String.length m - 1) s
      | None => Re.findall_from 0 s
      end
  end.
Proof. reflexivity. Qed.

Lemma findall_from_token (skip : nat) (s tok : string) :
  tok ∈ Re.findall_from skip s →
  is_warning_token tok ∧ ∃ pre post, s = pre +:+ tok +:+ post.
Proof.
  revert skip. induction s as [|c s IH]; intros skip.
  - by intros ?%elem_of_nil.
  - rewrite findall_from_cons.
    assert (∀ k, tok ∈ Re.findall_from k s →
              is_warning_token tok ∧ ∃ pre post, String c s = pre +:+ tok +:+ post) as Hrest.
    { intros k [Htok (pre & post & ->)]%IH. split; [done|].
      by exists (String c pre), post. }
    destruct skip as [|k]; [|apply Hrest].
    destruct (Re.match_here (String c s)) as [m|] eqn:Hm; [|apply Hrest].
    intros [->|Hin]%elem_of_cons; [|by eapply Hrest].
    apply match_here_token in Hm as [Htok [post Hpost]].
    split; [done|]. exists "", post. by rewrite Hpost.
Qed.

Lemma span_digits_stop (d rest : string) :
  all_digits d = true →
  Re.span_digits (d +:+ String "W" rest) = (d, String "W" rest).
Proof.
  induction d as [|x d IH]; [done|].
  rewrite append_cons. simpl. intros [Hx Hd]%andb_true_iff.
  by rewrite Hx, (IH Hd).
Qed.

Lemma match_here_complete (tok post : string) :
  is_warning_token tok → Re.match_here (tok +:+ post) = Some tok.
Proof.
  intros (d & -> & Hne & Hd).
  rewrite !append_assoc. repeat (rewrite append_cons || rewrite append_nil).
  unfold Re.match_here. rewrite (span_digits_stop _ _ Hd).
  destruct d as [|x d]; [done|]. reflexivity.
Qed.

(** Digits before an [A]: the [A] lies behind them. *)
Lemma digits_before_A (d pre t r : string) :
  all_digits d = true →
  pre +:+ String "A" t = d +:+ r →
  ∃ pre0, pre = d +:+ pre0.
Proof.
  revert pre. induction d as [|x d IH]; intros pre Hd H; [by exists pre|].
  simpl in Hd. apply andb_true_iff in Hd as [Hx Hd].
  destruct pre as [|y pre]; rewrite !append_cons in H || rewrite append_nil, append_cons in H.
  - injection H as <- _. discriminate.
  - injection H as -> H. destruct (IH pre Hd H) as [pre0 ->].
    exists pre0. by rewrite append_cons.
Qed.

Lemma findall_from_skip (skipped rest : string) :
  Re.findall_from (String.length skipped) (skipped +:+ rest) = Re.findall_from 0 rest.
Proof.
  induction skipped as [|c skipped IH]; [done|].
  by rewrite append_cons, findall_from_cons.
Qed.

Lemma length_append (a b : string) :
  String.length (a +:+ b) = (String.length a + String.length b)%nat.
Proof. induction a as [|x a IH]; [done|]. rewrite append_cons. simpl. by rewrite IH. Qed.

(** A match that starts before a token ends before it. *)
Lemma match_before_token (c : ascii) (pre tok post m : string) :
  is_warning_token tok →
  Re.match_here (String c (pre +:+ tok +:+ post)) = Some m →
  ∃ m' pre0, m = String c m' ∧ pre = m' +:+ pre0.
Proof.
  intros (d & -> & _ & _) Hm.
  apply match_here_token in Hm as [(dm & -> & _ & Hdm) [post' H]].
  rewrite !append_assoc in H. repeat (rewrite append_cons in H || rewrite append_nil in H).
  injection H as -> H.
  destruct pre as [|p1 pre]; repeat (rewrite append_cons in H || rewrite append_nil in H);
    [discriminate|]. injection H as -> H.
  destruct pre as [|p2 pre]; repeat (rewrite append_cons in H || rewrite append_nil in H);
    [discriminate|]. injection H as -> H.
  destruct (digits_before_A dm pre _ _ Hdm H) as [pre0 ->].
  rewrite append_assoc in H. apply String.app_inj in H.
  destruct pre0 as [|p3 pre0]; repeat (rewrite append_cons in H || rewrite append_nil in H);
    [discriminate|]. injection H as -> H.
  exists ("NS" +:+ dm +:+ "W"), pre0. split; [reflexivity|].
  rewrite !append_assoc. by repeat (rewrite append_cons || rewrite append_nil).
Qed.

Lemma findall_from_complete (n : nat) (pre tok post : string) :
  (String.length pre ≤ n)%nat →
  is_warning_token tok →
  tok ∈ Re.findall_from 0 (pre +:+ tok +:+ post).
Proof.
  revert pre. induction n as [|n IH]; intros pre Hlen Htok.
  - destruct pre as [|c pre]; [|simpl in Hlen; lia].
    rewrite append_nil.
    pose proof (match_here_complete tok post Htok) as Hm.
    destruct (tok +:+ post) as [|c s] eqn:Hs; [by destruct Htok as (? & -> & _)|].
    rewrite findall_from_cons, Hm. apply elem_of_cons. by left.
  - destruct pre as [|c pre]; [apply (IH ""); [simpl; lia|done]|].
    rewrite append_cons, findall_from_cons. simpl in Hlen.
    destruct (Re.match_here _) as [m|] eqn:Hm; [|apply IH; [lia|done]].
    apply elem_of_cons. right.
    destruct (match_before_token _ _ _ _ _ Htok Hm) as (m' & pre0 & -> & ->).
    simpl. rewrite Nat.sub_0_r, append_assoc, findall_from_skip.
    apply IH; [|done]. rewrite length_append in Hlen. lia.
Qed.

(** X13: the warnings [re.findall] takes from a line are the texts made of
    the letters ANS, one digit or more, and W that stand in the line: each
    one found is such a text, and none is passed over. *)
Theorem findall_spec (line tok : string) :
  tok ∈ Re.findall line ↔
  is_warning_token tok ∧ ∃ pre post, line = pre +:+ tok +:+ post.
Proof.
  split; [apply findall_from_token|].
  intros [Htok (pre & post & ->)]. by apply (findall_from_complete (String.length pre)).
Qed.

(** A log yields no warning exactly when no line of it holds a token. *)
Lemma no_warnings_iff (dsmc_log : list string) :
  List.concat (Re.findall <$> dsmc_log) = [] ↔
  ∀ line tok pre post,
    line ∈ dsmc_log → is_warning_token tok → line ≠ pre +:+ tok +:+ post.
Proof.
  induction dsmc_log as [|l dsmc_log IH].
  - split; [|done]. by intros _ line tok pre post ?%elem_of_nil.
  - rewrite fmap_cons. simpl. split.
    + intros [Hl Hrest]%app_nil line tok pre post [->|Hin]%elem_of_cons Htok ->.
      * assert (tok ∈ Re.findall (pre +:+ tok +:+ post)) as Hfound
          by (by apply (findall_from_complete (String.length pre))).
        rewrite Hl in Hfound. by apply elem_of_nil in Hfound.
      * by eapply (proj1 IH Hrest _ tok pre post Hin).
    + intros Hnone. apply app_nil. split.
      * destruct (Re.findall l) as [|tok toks] eqn:Hl; [done|].
        assert (tok ∈ Re.findall l) as [Htok (pre & post & Heq)]%findall_from_token
          by (rewrite Hl; apply elem_of_cons; by left).
        exfalso. eapply (Hnone l tok pre post); [apply elem_of_cons; by left|done..].
      * apply IH. intros line tok pre post Hin. apply Hnone.
        apply elem_of_cons. by right.
Qed.

(** ** The body of [_parse_dsmc_return_code] *)

Section HeuristicProperties.
Context {S : Type} `{!LocalQServer S}.

(** X14: run on a job alone, the body of the heuristic returns in two cases
    only: "error" for a return code other than 8, and "done" for return
    code 8 and a readable log with no warning token in any line.  With a
    token in the log it returns nothing, on the whitelist or not. *)
Theorem parse_dsmc_return_code_returns (fs : filesystem) (job : Job) (st : string) :
  _parse_dsmc_return_code (S:=S) fs [ObjJob job] = Return st ↔
  ∃ p, proc job = Some p ∧
    (returncode p ≠ Some 8 ∧ st = "error" ∨
     returncode p = Some 8 ∧ st = "done" ∧
       ∃ dsmc_log, open fs (stdout job) = Return dsmc_log ∧
         ∀ line tok pre post,
           line ∈ dsmc_log → is_warning_token tok → line ≠ pre +:+ tok +:+ post).
Proof.
  destruct (proc job) as [p|] eqn:Hproc.
  2:{ unfold _parse_dsmc_return_code, attr_proc. rewrite bind_Return, Hproc.
      split; [done|]. by intros (p & ? & _). }
  rewrite (parse_dsmc_return_code_body _ _ _ Hproc).
  case_bool_decide as Hrc.
  - destruct (open fs (stdout job)) as [dsmc_log|e] eqn:Hopen.
    + rewrite bind_Return, scan_warnings_unbound_self. split.
      * intros Hst. exists p. split; [done|]. right. split; [done|].
        destruct (List.concat _) eqn:Hlog; [|discriminate].
        injection Hst as <-. split; [done|]. exists dsmc_log. split; [done|].
        by apply no_warnings_iff.
      * intros (p' & [= <-] & [[Hne _]|(_ & -> & dsmc_log' & [= <-] & Hnone)]); [done|].
        apply no_warnings_iff in Hnone. by rewrite Hnone.
    + rewrite bind_Raise. split; [done|].
      intros (p' & [= <-] & [[Hne _]|(_ & _ & dsmc_log' & Hlog & _)]); done.
  - split.
    + intros [= <-]. exists p. split; [done|]. by left.
    + intros (p' & [= <-] & [[_ ->]|(Heq & _)]); done.
Qed.

End HeuristicProperties.

(** ** The further properties on concrete jobs *)

Lemma status_returns_translation_witness :
  ∃ n found raw,
    py_int (PyInt 4) = Return n ∧
    get_job_with_id (server adapter) (PyInt n) = Return found ∧
    get_status (server adapter) (PyInt 4) = Return raw ∧
    "error" = localq2arteria_status raw ∧
    ("error" = "error" →
       ∃ job, found = Some job ∧
              (contains "dsmc" (cmd job) = false ∨ contains "md5sum" (cmd job) = true)).
Proof.
  apply (status_returns_translation files adapter (PyInt 4) "error").
  vm_compute. reflexivity.
Defined.

Lemma status_done_only_completed_witness :
  get_status (server MoreJobs.adapter) (PyInt 6) = Return Status.COMPLETED.
Proof.
  apply (status_done_only_completed files MoreJobs.adapter (PyInt 6)).
  vm_compute. reflexivity.
Defined.

Lemma status_raises_cases_witness :
  status files adapter (PyInt 1) = Raise TypeError.
Proof.
  apply (proj2 (status_raises_cases files adapter (PyInt 1) TypeError)).
  right. exists 1. split; [reflexivity|]. right. exists (Some job1.1).
  split; [vm_compute; reflexivity|]. right.
  split; [vm_compute; reflexivity|]. repeat split; vm_compute; reflexivity.
Defined.

Lemma status_failed_without_job_witness :
  status files MoreJobs.adapter (PyStr "8") = Raise AttributeError.
Proof.
  apply (status_failed_without_job files MoreJobs.adapter (PyStr "8") 8);
    vm_compute; reflexivity.
Defined.

Lemma status_ignores_log_and_whitelist_witness :
  status files adapter (PyInt 4)
  = status ∅ {| nbr_of_cores := PyNone; whitelisted_warnings := []; server := server adapter |}
      (PyInt 4).
Proof.
  apply (status_ignores_log_and_whitelist files ∅ adapter
           {| nbr_of_cores := PyNone; whitelisted_warnings := []; server := server adapter |}
           (PyInt 4)).
  reflexivity.
Defined.

Lemma status_failed_other_command_witness :
  status files MoreJobs.adapter (PyInt 7) = Return "error".
Proof.
  apply (status_failed_other_command files MoreJobs.adapter (PyInt 7) 7 MoreJobs.job7.1);
    vm_compute; reflexivity.
Defined.

Lemma contains_substring_witness :
  contains "md5sum" ("cd /data && " +:+ "md5sum" +:+ " -c checksums.md5") = true.
Proof.
  apply (proj2 (contains_substring "md5sum"
                  ("cd /data && " +:+ "md5sum" +:+ " -c checksums.md5"))).
  exists "cd /data && ", " -c checksums.md5". reflexivity.
Defined.

Lemma findall_spec_witness :
  "ANS1809W" ∈ Re.findall ("12:01 " +:+ "ANS1809W" +:+ " Session is lost").
Proof.
  apply (proj2 (findall_spec ("12:01 " +:+ "ANS1809W" +:+ " Session is lost") "ANS1809W")).
  split.
  - exists "1809". split; [reflexivity|]. split; [discriminate|reflexivity].
  - exists "12:01 ", " Session is lost". reflexivity.
Defined.

Lemma parse_dsmc_return_code_returns_witness :
  _parse_dsmc_return_code (S:=state) files
    [ObjJob {| cmd := "dsmc archive /data/run3 -subdir=yes";
               stdout := PyStr "/log/3";
               proc := Some {| returncode := Some 8 |} |}]
  = Return "done".
Proof.
  apply (proj2 (parse_dsmc_return_code_returns (S:=state) files _ "done")).
  exists {| returncode := Some 8 |}. split; [reflexivity|]. right.
  split; [reflexivity|]. split; [reflexivity|].
  exists log3. split; [vm_compute; reflexivity|].
  apply no_warnings_iff. vm_compute. reflexivity.
Defined.
